(** * jax_bounded_while: a bounded [while_loop] built on a fixed-length scan

    Verification of [bounded_while_loop]
    (src/jax_bounded_while/__init__.py).

    The function orchestrates three primitives of its host libraries,
    [lax.scan], [lax.cond] and [equinox.error_if].  They are not part of
    the repository; they are embedded below by the contracts the
    specification gives them (section 6, "Required external primitives"):
    a scan runs its step function exactly [length] times in sequence, a
    cond executes exactly one of its two branches, and [error_if] returns
    its value together with a failure that fires when the value is
    realized.  With these contracts a run of the loop is a sequence of
    executions of the user's [cond_fn] and [body_fn]; the embedding records
    each of them in a trace, and lets an execution fail.  How the host
    calls the two functions on abstract values while it builds the
    computation, and what exceptions that raises, is outside these
    contracts and outside this development.

    "Executed" is meant as the docstring means it ("they are not executed
    once done=True"): what the computation does when it runs, not the
    tracing of the two functions when the computation is built. *)

From Stdlib Require Import ZArith QArith List String Bool Lia.
From ExtLib Require Import Structures.Monad.
Import ListNotations.
Import MonadNotation.
Local Open Scope monad_scope.
Local Open Scope Z_scope.

Set Implicit Arguments.

(** ** Python values and exceptions *)

(** The objects a caller may pass as [max_steps].  [bool] is a subclass of
    [int] in Python, so a [PyBool] is an [int] instance. *)
Inductive pyobj : Type :=
| PyInt (z : Z)
| PyBool (b : bool)
| PyFloat (q : Q)
| PyStr (s : string)
| PyNone.

(** The integer an [int] instance stands for ([True] is 1, [False] is 0);
    [None] for the objects on which [isinstance(x, int)] is false. *)
Definition int_value (x : pyobj) : option Z :=
  match x with
  | PyInt z => Some z
  | PyBool b => Some (Z.b2z b)
  | _ => None
  end.

Inductive exn : Type :=
| ValueError (msg : string)
| RuntimeError (msg : string)
| AssertionError (msg : string)
| OtherError (cls msg : string).

Definition exn_msg (e : exn) : string :=
  match e with
  | ValueError m | RuntimeError m | AssertionError m | OtherError _ m => m
  end.

(** [needle in haystack] on strings. *)
Definition mentions (haystack needle : string) : bool :=
  match String.index 0 needle haystack with
  | Some _ => true
  | None => false
  end.

(** ** Runs: a trace of user-function executions and an outcome *)

Inductive outcome (A : Type) : Type :=
| Ok (a : A)
| Raise (e : exn).
Arguments Raise {A} e.

(** A boolean or integer scalar, as [cond_fn] may return it. *)
Inductive scalar : Type :=
| BoolScalar (b : bool)
| IntScalar (z : Z).

(** [jnp.asarray(x, dtype=bool)] on a scalar: non-zero is true. *)
Definition asarray_bool (x : scalar) : bool :=
  match x with
  | BoolScalar b => b
  | IntScalar z => negb (z =? 0)
  end.

Section Runs.
Variable T : Type.

(** One execution of a user function, with the carry it was given. *)
Inductive event : Type :=
| EvCond (val : T)
| EvBody (val : T).

Definition trace : Type := list event.

Definition Run (A : Type) : Type := (trace * outcome A)%type.

Definition run_ret {A} (a : A) : Run A := ([], Ok a).

Definition run_bind {A B} (m : Run A) (k : A -> Run B) : Run B :=
  match m with
  | (t, Ok a) => let (t', r) := k a in (t ++ t', r)
  | (t, Raise e) => (t, Raise e)
  end.

Definition raise {A} (e : exn) : Run A := ([], Raise e).

Definition events {A} (m : Run A) : trace := fst m.
Definition result {A} (m : Run A) : outcome A := snd m.
End Runs.

Arguments EvCond {T} val.
Arguments EvBody {T} val.
Arguments run_ret {T A} a.
Arguments run_bind {T A B} m k.
Arguments raise {T A} e.
Arguments events {T A} m.
Arguments result {T A} m.

#[global] Instance Monad_Run (T : Type) : Monad (Run T) :=
  {| ret := fun A => @run_ret T A;
     bind := fun A B => @run_bind T A B |}.

(** ** The primitives, by their contracts *)

(** Modelled from the spec: [lax.cond(pred, true_fun, false_fun,
    operand)], the exclusive conditional-branch primitive: "executes
    exactly one branch and returns its result". *)
Definition lax_cond {M : Type -> Type} {A B : Type}
    (pred : bool) (true_fun false_fun : A -> M B) (operand : A) : M B :=
  if pred then true_fun operand else false_fun operand.

(** Modelled from the spec: [lax.scan(f, init, xs=None, length=n)], the
    fixed-length iteration primitive: "executes it exactly N times
    sequentially and returns the final state", with the per-step outputs
    beside it.  With [xs=None] every step receives [None]. *)
Fixpoint lax_scan {T C Y : Type} (f : C -> unit -> Run T (C * Y)) (init : C)
    (length : nat) : Run T (C * list Y) :=
  match length with
  | O => ret (init, [])
  | S n =>
      '(c, y) <- f init tt ;;
      '(c', ys) <- lax_scan f c n ;;
      ret (c', y :: ys)
  end.

(** A value that may carry a failure which fires when it is realized. *)
Record Deferred (A : Type) : Type :=
  { observed : A; pending : option string }.

(** A value with nothing attached. *)
Definition plain {A} (x : A) : Deferred A :=
  {| observed := x; pending := None |}.

(** Modelled from the spec: [equinox.error_if(x, pred, msg)], the
    deferred-assertion primitive: "returns the value unchanged if the
    predicate is false, and arranges for a runtime failure bearing that
    message when the value is realized and the predicate is true". *)
Definition error_if {A} (x : A) (pred : bool) (msg : string) : Deferred A :=
  {| observed := x; pending := if pred then Some msg else None |}.

(** Realizing (consuming) a returned value. *)
Definition realize {A} (d : Deferred A) : outcome A :=
  match pending d with
  | Some msg => Raise (RuntimeError msg)
  | None => Ok (observed d)
  end.

(** ** The loop *)

Definition config_msg : string :=
  "max_steps must be a non-negative Python int."%string.

Definition overflow_msg : string :=
  "bounded_while_loop exceeded max_steps without cond_fn becoming False."%string.

Section Loop.
Variable T : Type.
Variable cond_fn : T -> outcome scalar.
Variable body_fn : T -> outcome T.

(** Executing a user function: the execution is recorded, and the
    function's outcome is the run's.  [Raise] stands for an execution that
    fails on the carry it is given; an exception raised while the host
    traces the function, before any step runs, is not modelled. *)
Definition call_cond (val : T) : Run T scalar := ([EvCond val], cond_fn val).
Definition call_body (val : T) : Run T T := ([EvBody val], body_fn val).

(** [scan_step], the closure defined inside [bounded_while_loop]. *)
Definition scan_step (carry : T * bool) (_unused : unit)
    : Run T ((T * bool) * unit) :=
  let '(val, done) := carry in
  let already_done (_ : unit) : Run T (T * bool) :=
    ret carry in
  let do_body (_ : unit) : Run T (T * bool) :=
    new <- call_body val ;;
    ret (new, false) in
  let stop_now (_ : unit) : Run T (T * bool) :=
    ret (val, true) in
  let not_done (_ : unit) : Run T (T * bool) :=
    c <- call_cond val ;;
    let continue_ := asarray_bool c in
    lax_cond continue_ do_body stop_now tt in
  '(new_val, new_done) <- lax_cond done already_done not_done tt ;;
  ret ((new_val, new_done), tt).

Definition bounded_while_loop (init_val : T) (max_steps : pyobj)
    : Run T (Deferred T) :=
  (* [not isinstance(max_steps, int) or max_steps < 0]: the comparison
     is only reached by int instances. *)
  match int_value max_steps with
  | None => raise (ValueError config_msg)
  | Some n =>
      if n <? 0 then raise (ValueError config_msg)
      else if n =? 0 then ret (plain init_val)
      else
        let init_carry := (init_val, false) in
        '((final_val, final_done), _) <-
           lax_scan scan_step init_carry (Z.to_nat n) ;;
        let final_val :=
          error_if final_val (negb final_done) overflow_msg in
        ret final_val
  end.
End Loop.

(** ** Reference notions: iterating the body, counting executions *)

Section Reference.
Variable T : Type.
Variable cond_fn : T -> outcome scalar.
Variable body_fn : T -> outcome T.

(** [body_fn] applied [k] times, starting from [v]. *)
Fixpoint iterate_body (k : nat) (v : T) : outcome T :=
  match k with
  | O => Ok v
  | S k' =>
      match body_fn v with
      | Ok v' => iterate_body k' v'
      | Raise e => Raise e
      end
  end.

(** What [cond_fn] says at [v], as a boolean; [None] when it raises. *)
Definition continues (v : T) : option bool :=
  match cond_fn v with
  | Ok c => Some (asarray_bool c)
  | Raise _ => None
  end.

(** [cond_fn] is true before each of the first [k] applications of
    [body_fn] (on [init], on [body init], ...). *)
Definition cond_true_through (k : nat) (init : T) : Prop :=
  forall j, (j < k)%nat ->
    exists v, iterate_body j init = Ok v /\ continues v = Some true.

(** [cond_fn] first becomes false after exactly [k] applications of
    [body_fn], on the carry [v]. *)
Definition first_false_after (k : nat) (init v : T) : Prop :=
  cond_true_through k init /\
  iterate_body k init = Ok v /\
  continues v = Some false.

(** [cond_fn] stays true for [n] applications of [body_fn], which lead
    to [v]. *)
Definition still_true_after (n : nat) (init v : T) : Prop :=
  cond_true_through n init /\ iterate_body n init = Ok v.

Definition is_body (ev : event T) : bool :=
  match ev with
  | EvBody _ => true
  | EvCond _ => false
  end.

(** How often [body_fn] was executed in a run. *)
Definition body_calls (t : trace T) : nat :=
  List.length (filter is_body t).

Definition is_cond (ev : event T) : bool :=
  match ev with
  | EvCond _ => true
  | EvBody _ => false
  end.

(** How often [cond_fn] was executed in a run. *)
Definition cond_calls (t : trace T) : nat :=
  List.length (filter is_cond t).

(** The loop the docstring of [bounded_while_loop] says it emulates:
<<
    val = init_val
    i = 0
    while cond_fn(val) and i < max_steps:
        val = body_fn(val)
        i += 1
    return val
>>
    [remaining] is [max_steps - i].  [and] evaluates [cond_fn(val)]
    first, and [i < max_steps] only when that is true. *)
Fixpoint docstring_loop (remaining : nat) (val : T) : outcome T :=
  match cond_fn val with
  | Raise e => Raise e
  | Ok c =>
      if asarray_bool c then
        match remaining with
        | O => Ok val
        | S remaining' =>
            match body_fn val with
            | Ok val' => docstring_loop remaining' val'
            | Raise e => Raise e
            end
        end
      else Ok val
  end.
End Reference.

(** A Python object that is a non-negative integer: an [int] that is at
    least 0, or a [bool] (an [int] instance worth 0 or 1). *)
Inductive nonneg_integer : pyobj -> Prop :=
| nonneg_int (z : Z) : 0 <= z -> nonneg_integer (PyInt z)
| nonneg_bool (b : bool) : nonneg_integer (PyBool b).

(** ** Running examples, from the tests *)

Module Examples.
(** [test_scalar_loop_stops_on_condition]. *)
Definition lt5 (x : Z) : outcome scalar := Ok (BoolScalar (x <? 5)).
Definition incr (x : Z) : outcome Z := Ok (x + 1).

(** [test_pytree_carry_tuple]. *)
Definition fst_lt3 (s : Z * Z) : outcome scalar :=
  let '(x, _) := s in Ok (BoolScalar (x <? 3)).
Definition incr_double (s : Z * Z) : outcome (Z * Z) :=
  let '(x, y) := s in Ok (x + 1, y * 2).

(** [test_early_stop_no_extra_body_calls]. *)
Definition fst_lt2 (s : Z * Z) : outcome scalar :=
  let '(x, _) := s in Ok (BoolScalar (x <? 2)).
Definition incr_both (s : Z * Z) : outcome (Z * Z) :=
  let '(x, count) := s in Ok (x + 1, count + 1).

(** [test_max_steps_zero_returns_init_without_calling_fns]. *)
Definition cond_asserts (_ : Z) : outcome scalar :=
  Raise (AssertionError "cond_fn should not be called when max_steps=0").
Definition body_asserts (_ : Z) : outcome Z :=
  Raise (AssertionError "body_fn should not be called when max_steps=0").

(** [test_raises_when_condition_never_false]. *)
Definition always (_ : Z) : outcome scalar := Ok (BoolScalar true).
End Examples.

(** ** Proof steps used throughout *)

(** Splits on the four ways a step from a live carry can go, given the
    case lemma for the carry at hand. *)
Ltac four_ways H :=
  destruct H
    as [(e' & Hc & Hs)|[(Hc & Hs)|[(e' & Hc & Hb & Hs)|(new & Hc & Hb & Hs)]]].

(** Settles [cond_true_through k init] on concrete functions by running
    them at each of the [k] indices. *)
Tactic Notation "through" integer(k) :=
  let j := fresh "j" in
  let Hj := fresh "Hj" in
  intros j Hj;
  do k (destruct j as [|j]; [eexists; split; reflexivity|]);
  lia.

(** ** The tests of the repository, replayed *)

Example test_scalar_loop_stops_on_condition :
  result (bounded_while_loop Examples.lt5 Examples.incr 0 (PyInt 10))
  = Ok (plain 5).
Proof. reflexivity. Qed.

Example test_pytree_carry_tuple :
  result (bounded_while_loop Examples.fst_lt3 Examples.incr_double (0, 1)
            (PyInt 5))
  = Ok (plain (3, 8)).
Proof. reflexivity. Qed.

Example test_early_stop_no_extra_body_calls :
  result (bounded_while_loop Examples.fst_lt2 Examples.incr_both (0, 0)
            (PyInt 10))
  = Ok (plain (2, 2)).
Proof. reflexivity. Qed.

Example test_max_steps_zero_returns_init_without_calling_fns :
  bounded_while_loop Examples.cond_asserts Examples.body_asserts 1 (PyInt 0)
  = ([], Ok (plain 1)).
Proof. reflexivity. Qed.

Example test_invalid_max_steps_raises :
  map (fun max_steps =>
         bounded_while_loop Examples.lt5 Examples.incr 0 max_steps)
      [PyInt (-1); PyFloat (3 # 2); PyStr "3"]
  = repeat ([], Raise (ValueError config_msg)) 3.
Proof. reflexivity. Qed.

Example test_raises_when_condition_never_false :
  match result (bounded_while_loop Examples.always Examples.incr 0 (PyInt 3)) with
  | Ok d => realize d
  | Raise e => Raise e
  end = Raise (RuntimeError overflow_msg).
Proof. reflexivity. Qed.

(** ** Composing scans *)

(** A scan of [n + m] steps is a scan of [n] steps followed by one of [m]
    steps from the carry the first one reached. *)
Lemma lax_scan_app {T C Y} (f : C -> unit -> Run T (C * Y)) n m :
  forall init,
    lax_scan f init (n + m)
    = ('(c, ys) <- lax_scan f init n ;;
       '(c', ys') <- lax_scan f c m ;;
       ret (c', ys ++ ys')).
Proof.
  induction n as [|n IH]; intros init.
  - simpl. destruct (lax_scan f init m) as [t [[c ys]|e]];
      cbn; rewrite ?app_nil_r; reflexivity.
  - cbn [Nat.add lax_scan].
    destruct (f init tt) as [t [[c y]|e]]; [|reflexivity].
    simpl. rewrite IH.
    destruct (lax_scan f c n) as [t1 [[c1 ys1]|e1]]; [|reflexivity].
    simpl.
    destruct (lax_scan f c1 m) as [t2 [[c2 ys2]|e2]]; simpl;
      rewrite ?app_nil_r, ?app_assoc; reflexivity.
Qed.

Section LoopFacts.
Variable T : Type.
Variable cond_fn : T -> outcome scalar.
Variable body_fn : T -> outcome T.

Local Abbreviation step := (scan_step cond_fn body_fn).
Local Abbreviation loop := (bounded_while_loop cond_fn body_fn).

(** *** One step *)

Lemma scan_step_done (val : T) :
  step (val, true) tt = ([], Ok ((val, true), tt)).
Proof. reflexivity. Qed.

Lemma scan_step_continue (val new : T) :
  continues cond_fn val = Some true ->
  body_fn val = Ok new ->
  step (val, false) tt = ([EvCond val; EvBody val], Ok ((new, false), tt)).
Proof.
  unfold continues, scan_step, call_cond, call_body. intros Hc Hb. simpl.
  destruct (cond_fn val) as [c|e]; [|discriminate].
  injection Hc as ->. simpl. rewrite Hb. reflexivity.
Qed.

Lemma scan_step_stop (val : T) :
  continues cond_fn val = Some false ->
  step (val, false) tt = ([EvCond val], Ok ((val, true), tt)).
Proof.
  unfold continues, scan_step, call_cond. intros Hc. simpl.
  destruct (cond_fn val) as [c|e]; [|discriminate].
  injection Hc as ->. reflexivity.
Qed.

Lemma scan_step_cond_raises (val : T) e :
  cond_fn val = Raise e ->
  step (val, false) tt = ([EvCond val], Raise e).
Proof.
  unfold scan_step, call_cond. intros Hc. simpl. rewrite Hc. reflexivity.
Qed.

Lemma scan_step_body_raises (val : T) e :
  continues cond_fn val = Some true ->
  body_fn val = Raise e ->
  step (val, false) tt = ([EvCond val; EvBody val], Raise e).
Proof.
  unfold continues, scan_step, call_cond, call_body. intros Hc Hb. simpl.
  destruct (cond_fn val) as [c|e']; [|discriminate].
  injection Hc as ->. simpl. rewrite Hb. reflexivity.
Qed.
(** Every step from a live carry goes one of four ways. *)
Lemma scan_step_cases (val : T) :
  (exists e, cond_fn val = Raise e /\
     step (val, false) tt = ([EvCond val], Raise e)) \/
  (continues cond_fn val = Some false /\
     step (val, false) tt = ([EvCond val], Ok ((val, true), tt))) \/
  (exists e, continues cond_fn val = Some true /\ body_fn val = Raise e /\
     step (val, false) tt = ([EvCond val; EvBody val], Raise e)) \/
  (exists new, continues cond_fn val = Some true /\ body_fn val = Ok new /\
     step (val, false) tt
     = ([EvCond val; EvBody val], Ok ((new, false), tt))).
Proof.
  destruct (cond_fn val) as [c|e] eqn:Hc.
  - assert (Hk : continues cond_fn val = Some (asarray_bool c))
      by (unfold continues; rewrite Hc; reflexivity).
    destruct (asarray_bool c).
    + destruct (body_fn val) as [new|e] eqn:Hb.
      * right; right; right. exists new.
        auto using scan_step_continue.
      * right; right; left. exists e.
        auto using scan_step_body_raises.
    + right; left. auto using scan_step_stop.
  - left. exists e. auto using scan_step_cond_raises.
Qed.

(** *** The scan *)

Lemma lax_scan_S_ok {C Y} (f : C -> unit -> Run T (C * Y)) init n t c y :
  f init tt = (t, Ok (c, y)) ->
  lax_scan f init (S n)
  = (t ++ events (lax_scan f c n),
     match result (lax_scan f c n) with
     | Ok (c', ys) => Ok (c', y :: ys)
     | Raise e => Raise e
     end).
Proof.
  intros Hf. cbn [lax_scan]. rewrite Hf. simpl.
  destruct (lax_scan f c n) as [t' [[c' ys]|e]]; simpl;
    rewrite ?app_nil_r; reflexivity.
Qed.

Lemma lax_scan_S_raise {C Y} (f : C -> unit -> Run T (C * Y)) init n t e :
  f init tt = (t, Raise e) ->
  lax_scan f init (S n) = (t, Raise e).
Proof. intros Hf. cbn [lax_scan]. rewrite Hf. reflexivity. Qed.

(** Once the latch is set the scan neither executes anything nor changes
    the carry. *)
Lemma lax_scan_done (val : T) n :
  lax_scan step (val, true) n = ([], Ok ((val, true), repeat tt n)).
Proof.
  induction n as [|n IH]; [reflexivity|].
  erewrite lax_scan_S_ok by apply scan_step_done.
  rewrite IH. reflexivity.
Qed.

(** *** Unrolling the reference notions *)

Lemma cond_true_through_head k init :
  cond_true_through cond_fn body_fn (S k) init ->
  continues cond_fn init = Some true.
Proof.
  intros H. destruct (H O) as (v & Hv & Hc); [lia|].
  injection Hv as <-. exact Hc.
Qed.

Lemma cond_true_through_tail k init new :
  cond_true_through cond_fn body_fn (S k) init ->
  body_fn init = Ok new ->
  cond_true_through cond_fn body_fn k new.
Proof.
  intros H Hb j Hj. destruct (H (S j)) as (v & Hv & Hc); [lia|].
  simpl in Hv. rewrite Hb in Hv. eauto.
Qed.

Lemma cond_true_through_le k j init :
  (j <= k)%nat ->
  cond_true_through cond_fn body_fn k init ->
  cond_true_through cond_fn body_fn j init.
Proof. intros Hle H i Hi. apply H. lia. Qed.

Lemma iterate_body_S_inv k init v :
  iterate_body body_fn (S k) init = Ok v ->
  exists new, body_fn init = Ok new /\ iterate_body body_fn k new = Ok v.
Proof.
  simpl. destruct (body_fn init) as [new|e]; [eauto|discriminate].
Qed.

(** A prefix of a successful iteration is successful. *)
Lemma iterate_body_prefix k : forall j init v,
  (j <= k)%nat ->
  iterate_body body_fn k init = Ok v ->
  exists w, iterate_body body_fn j init = Ok w.
Proof.
  induction k as [|k IH]; intros j init v Hle Hk.
  - assert (j = O) as -> by lia. eauto.
  - destruct j as [|j]; [simpl; eauto|].
    apply iterate_body_S_inv in Hk as (new & Hb & Hk).
    simpl. rewrite Hb. apply (IH j new v); [lia|exact Hk].
Qed.

(** While [cond_fn] stays true the scan applies [body_fn] at every step
    and leaves the latch open. *)
Lemma lax_scan_continuing n : forall init v,
  still_true_after cond_fn body_fn n init v ->
  exists t,
    lax_scan step (init, false) n = (t, Ok ((v, false), repeat tt n)) /\
    body_calls t = n.
Proof.
  induction n as [|n IH]; intros init v [Ht Hv].
  - injection Hv as <-. exists []. split; reflexivity.
  - pose proof (cond_true_through_head Ht) as Hc.
    apply iterate_body_S_inv in Hv as (new & Hb & Hv).
    destruct (IH new v) as (t & Hscan & Hcount).
    { split; [eapply cond_true_through_tail; eassumption | exact Hv]. }
    exists (EvCond init :: EvBody init :: t).
    erewrite lax_scan_S_ok by (apply scan_step_continue; eassumption).
    rewrite Hscan.
    split; [reflexivity|].
    unfold body_calls in *. simpl. rewrite Hcount. reflexivity.
Qed.

(** When [cond_fn] first fails after [k] applications, every longer scan
    ends on that carry with the latch set, having applied [body_fn]
    [k] times. *)
Lemma lax_scan_stops k m init v :
  first_false_after cond_fn body_fn k init v ->
  exists t,
    lax_scan step (init, false) (k + S m)
    = (t, Ok ((v, true), repeat tt (k + S m))) /\
    body_calls t = k.
Proof.
  intros (Ht & Hv & Hc).
  destruct (@lax_scan_continuing k init v) as (t & Hscan & Hcount);
    [split; assumption|].
  exists (t ++ [EvCond v]). split.
  - rewrite lax_scan_app, Hscan. cbn [bind Monad_Run run_bind].
    erewrite lax_scan_S_ok by (apply scan_step_stop; eassumption).
    rewrite lax_scan_done.
    simpl. rewrite repeat_app. reflexivity.
  - unfold body_calls in *. rewrite filter_app, length_app, Hcount.
    simpl. lia.
Qed.

(** After an execution of [cond_fn] that said "stop", the scan executes
    nothing more. *)
Lemma lax_scan_silent_after_stop n : forall val done t1 u t2,
  events (lax_scan step (val, done) n) = t1 ++ EvCond u :: t2 ->
  continues cond_fn u = Some false ->
  t2 = [].
Proof.
  induction n as [|n IH]; intros val done t1 u t2 Hev Hu.
  { destruct t1; discriminate. }
  destruct done.
  { rewrite lax_scan_done in Hev. destruct t1; discriminate. }
  four_ways (scan_step_cases val).
  - rewrite (lax_scan_S_raise _ _ n Hs) in Hev.
    destruct t1 as [|? [|? ?]]; simpl in Hev; congruence.
  - rewrite (lax_scan_S_ok _ _ n Hs), lax_scan_done in Hev.
    destruct t1 as [|? [|? ?]]; simpl in Hev; congruence.
  - rewrite (lax_scan_S_raise _ _ n Hs) in Hev.
    destruct t1 as [|? [|? [|? ?]]]; simpl in Hev; congruence.
  - rewrite (lax_scan_S_ok _ _ n Hs) in Hev.
    destruct t1 as [|? [|? t1]]; simpl in Hev; try congruence.
    injection Hev as _ _ Hev. eapply IH; eassumption.
Qed.

(** *** The three paths of [bounded_while_loop] *)

Lemma max_steps_cases (max_steps : pyobj) :
  ~ nonneg_integer max_steps \/
  int_value max_steps = Some 0 \/
  exists n, int_value max_steps = Some (Z.of_nat (S n)).
Proof.
  destruct max_steps as [z|[|]|q|s|];
    try (left; intros H; inversion H; fail).
  - destruct (Z.compare_spec z 0) as [->|Hlt|Hgt].
    + right; left; reflexivity.
    + left. intros H. inversion H. lia.
    + right; right. exists (Z.to_nat (z - 1)). simpl. f_equal. lia.
  - right; right. exists O. reflexivity.
  - right; left. reflexivity.
Qed.

Lemma loop_rejects (init : T) (max_steps : pyobj) :
  ~ nonneg_integer max_steps ->
  loop init max_steps = ([], Raise (ValueError config_msg)).
Proof.
  unfold bounded_while_loop.
  destruct max_steps as [z|b|q|s|]; simpl; try reflexivity.
  - intros H. destruct (Z.ltb_spec z 0); [reflexivity|].
    exfalso. apply H. constructor. assumption.
  - intros H. exfalso. apply H. constructor.
Qed.

Lemma loop_zero (init : T) (max_steps : pyobj) :
  int_value max_steps = Some 0 ->
  loop init max_steps = ([], Ok (plain init)).
Proof. unfold bounded_while_loop. intros ->. reflexivity. Qed.

Lemma loop_scans (init : T) (max_steps : pyobj) n :
  int_value max_steps = Some (Z.of_nat (S n)) ->
  loop init max_steps
  = (events (lax_scan step (init, false) (S n)),
     match result (lax_scan step (init, false) (S n)) with
     | Ok ((final_val, final_done), _) =>
         Ok (error_if final_val (negb final_done) overflow_msg)
     | Raise e => Raise e
     end).
Proof.
  unfold bounded_while_loop. intros ->.
  destruct (Z.ltb_spec (Z.of_nat (S n)) 0); [lia|].
  destruct (Z.eqb_spec (Z.of_nat (S n)) 0); [lia|].
  rewrite Nat2Z.id.
  destruct (lax_scan step (init, false) (S n)) as [t [[[v d] ys]|e]];
    simpl; rewrite ?app_nil_r; reflexivity.
Qed.
End LoopFacts.

(** ** The step transition *)

(** C3. The step transition: a carry whose latch is set is returned
    unchanged and nothing is executed; on a live carry [cond_fn] is
    executed once and its result coerced to a boolean; when that is true
    [body_fn] is executed and the step returns [(body(val), false)]; when
    it is false the step returns [(val, true)] and [body_fn] is not
    executed. *)
Theorem scan_step_contract {T} (cond_fn : T -> outcome scalar)
    (body_fn : T -> outcome T) (val : T) :
  scan_step cond_fn body_fn (val, true) tt = ([], Ok ((val, true), tt)) /\
  (forall c new,
      cond_fn val = Ok c -> asarray_bool c = true -> body_fn val = Ok new ->
      scan_step cond_fn body_fn (val, false) tt
      = ([EvCond val; EvBody val], Ok ((new, false), tt))) /\
  (forall c,
      cond_fn val = Ok c -> asarray_bool c = false ->
      scan_step cond_fn body_fn (val, false) tt
      = ([EvCond val], Ok ((val, true), tt))).
Proof.
  split; [reflexivity|split].
  - intros c new Hc Hb Hn. apply scan_step_continue; [|exact Hn].
    unfold continues. rewrite Hc, Hb. reflexivity.
  - intros c Hc Hb. apply scan_step_stop.
    unfold continues. rewrite Hc, Hb. reflexivity.
Qed.

Lemma scan_step_contract_witness :
  scan_step Examples.lt5 Examples.incr (7, true) tt
  = ([], Ok ((7, true), tt)) /\
  scan_step Examples.lt5 Examples.incr (4, false) tt
  = ([EvCond 4; EvBody 4], Ok ((5, false), tt)) /\
  scan_step Examples.lt5 Examples.incr (5, false) tt
  = ([EvCond 5], Ok ((5, true), tt)).
Proof.
  split; [|split].
  - apply (scan_step_contract Examples.lt5 Examples.incr 7).
  - apply (proj1 (proj2 (scan_step_contract Examples.lt5 Examples.incr 4))
             (BoolScalar true) 5); reflexivity.
  - apply (proj2 (proj2 (scan_step_contract Examples.lt5 Examples.incr 5))
             (BoolScalar false)); reflexivity.
Defined.

(** C7. The latch is monotonic: a step never takes a set latch back to
    false (the transitions are false to false, false to true and true to
    true), a step on a set latch returns the carry unchanged, and so does
    every further run of steps. *)
Theorem done_latch_monotonic {T} (cond_fn : T -> outcome scalar)
    (body_fn : T -> outcome T) (val : T) (done : bool) t new_val new_done :
  scan_step cond_fn body_fn (val, done) tt
  = (t, Ok ((new_val, new_done), tt)) ->
  Bool.le done new_done /\
  (done = true ->
   new_val = val /\ new_done = true /\
   forall n,
     lax_scan (scan_step cond_fn body_fn) (new_val, new_done) n
     = ([], Ok ((val, true), repeat tt n))).
Proof.
  intros Hstep. destruct done.
  - rewrite scan_step_done in Hstep. injection Hstep as _ <- <-.
    split; [reflexivity|]. intros _.
    split; [reflexivity|split; [reflexivity|]].
    intros n. apply lax_scan_done.
  - split; [exact I|discriminate].
Qed.

Lemma done_latch_monotonic_witness :
  Bool.le true true /\
  (true = true ->
   9 = 9 /\ true = true /\
   forall n,
     lax_scan (scan_step Examples.lt5 Examples.incr) (9, true) n
     = ([], Ok ((9, true), repeat tt n))).
Proof.
  apply (@done_latch_monotonic Z Examples.lt5 Examples.incr 9 true [] 9 true).
  reflexivity.
Defined.

(** ** The configuration check and the trivial bound *)

(** C4. With [max_steps = 0] the loop returns [init] itself, with nothing
    attached to it, and executes neither [cond_fn] nor [body_fn]. *)
Theorem zero_steps_returns_init {T} (cond_fn : T -> outcome scalar)
    (body_fn : T -> outcome T) (init : T) :
  bounded_while_loop cond_fn body_fn init (PyInt 0) = ([], Ok (plain init)) /\
  realize (plain init) = Ok init.
Proof. split; reflexivity. Qed.

(** C5. A [max_steps] that is not a non-negative integer is rejected at
    once: the call raises [ValueError] with the message naming the
    non-negative-integer requirement, and nothing was executed before
    (no scan, no [cond_fn], no [body_fn]). *)
Theorem invalid_max_steps_rejected {T} (cond_fn : T -> outcome scalar)
    (body_fn : T -> outcome T) (init : T) (max_steps : pyobj) :
  ~ nonneg_integer max_steps ->
  let e := ValueError config_msg in
  bounded_while_loop cond_fn body_fn init max_steps = ([], Raise e) /\
  mentions (exn_msg e) "non-negative" = true /\
  mentions (exn_msg e) "int" = true.
Proof.
  intros H e. split; [apply loop_rejects; exact H|split; reflexivity].
Qed.

Lemma invalid_max_steps_rejected_witness :
  let e := ValueError config_msg in
  bounded_while_loop Examples.lt5 Examples.incr 0 (PyFloat (3 # 2))
  = ([], Raise e) /\
  mentions (exn_msg e) "non-negative" = true /\
  mentions (exn_msg e) "int" = true.
Proof.
  apply (invalid_max_steps_rejected Examples.lt5 Examples.incr 0).
  intros H. inversion H.
Defined.

(** C10. A Python [bool] passes the check on [max_steps]: [True] runs
    the loop exactly as [max_steps = 1] does (so [cond_fn] is executed on
    [init], which a configuration error would have prevented), and
    [False] as [max_steps = 0], returning [init] with nothing executed. *)
Theorem bool_max_steps_accepted {T} (cond_fn : T -> outcome scalar)
    (body_fn : T -> outcome T) (init : T) :
  bounded_while_loop cond_fn body_fn init (PyBool true)
  = bounded_while_loop cond_fn body_fn init (PyInt 1) /\
  (exists t,
      events (bounded_while_loop cond_fn body_fn init (PyBool true))
      = EvCond init :: t) /\
  bounded_while_loop cond_fn body_fn init (PyBool false)
  = bounded_while_loop cond_fn body_fn init (PyInt 0) /\
  bounded_while_loop cond_fn body_fn init (PyBool false)
  = ([], Ok (plain init)).
Proof.
  split; [reflexivity|split; [|split; reflexivity]].
  rewrite (@loop_scans T cond_fn body_fn init (PyBool true) O) by reflexivity.
  unfold events at 1. cbn [fst].
  four_ways (scan_step_cases cond_fn body_fn init).
  - rewrite (lax_scan_S_raise _ _ O Hs). eexists; reflexivity.
  - rewrite (lax_scan_S_ok _ _ O Hs). eexists; reflexivity.
  - rewrite (lax_scan_S_raise _ _ O Hs). eexists; reflexivity.
  - rewrite (lax_scan_S_ok _ _ O Hs). eexists; reflexivity.
Qed.

(** ** Termination within the bound *)

(** X1. When [cond_fn] first becomes false after [k] applications of
    [body_fn] and the bound leaves room for one more step
    ([k < max_steps]), the loop returns the carry after [k] applications
    with no failure attached, whatever the bound. *)
Theorem stops_below_bound {T} (cond_fn : T -> outcome scalar)
    (body_fn : T -> outcome T) (init v : T) (k : nat) (max_steps : Z) :
  first_false_after cond_fn body_fn k init v ->
  Z.of_nat k < max_steps ->
  result (bounded_while_loop cond_fn body_fn init (PyInt max_steps))
  = Ok (plain v) /\
  realize (plain v) = Ok v.
Proof.
  intros Hk Hlt. split; [|reflexivity].
  assert (Hn : exists m, max_steps = Z.of_nat (S (k + m))).
  { exists (Z.to_nat (max_steps - Z.of_nat k - 1)). lia. }
  destruct Hn as (m & ->).
  rewrite (@loop_scans T cond_fn body_fn init _ (k + m)) by reflexivity.
  destruct (lax_scan_stops m Hk) as (t & Hscan & _).
  replace (S (k + m)) with (k + S m)%nat by lia.
  rewrite Hscan. reflexivity.
Qed.

Lemma lt5_first_false_after_5 :
  first_false_after Examples.lt5 Examples.incr 5 0 5.
Proof.
  split; [|split; reflexivity].
  through 5.
Qed.

Lemma stops_below_bound_witness :
  result (bounded_while_loop Examples.lt5 Examples.incr 0 (PyInt 10))
  = Ok (plain 5) /\
  realize (plain 5) = Ok 5.
Proof.
  apply (@stops_below_bound Z Examples.lt5 Examples.incr 0 5 5 10).
  - exact lt5_first_false_after_5.
  - reflexivity.
Defined.

(** X2. When [cond_fn] first becomes false after exactly [max_steps >= 1]
    applications, the scan has no step left to observe it: the latch is
    still open and the returned carry has the overflow failure
    attached. *)
Theorem stop_at_bound_is_flagged {T} (cond_fn : T -> outcome scalar)
    (body_fn : T -> outcome T) (init v : T) (k : nat) :
  first_false_after cond_fn body_fn k init v ->
  (0 < k)%nat ->
  result (bounded_while_loop cond_fn body_fn init (PyInt (Z.of_nat k)))
  = Ok (error_if v true overflow_msg) /\
  realize (error_if v true overflow_msg) = Raise (RuntimeError overflow_msg).
Proof.
  intros (Ht & Hv & _) Hpos. split; [|reflexivity].
  destruct k as [|k]; [lia|].
  rewrite (@loop_scans T cond_fn body_fn init _ k) by reflexivity.
  destruct (@lax_scan_continuing T cond_fn body_fn (S k) init v)
    as (t & Hscan & _); [split; assumption|].
  rewrite Hscan. reflexivity.
Qed.

Lemma fst_lt3_first_false_after_3 :
  first_false_after Examples.fst_lt3 Examples.incr_double 3 (0, 1) (3, 8).
Proof.
  split; [|split; reflexivity].
  through 3.
Qed.

Lemma stop_at_bound_is_flagged_witness :
  result (bounded_while_loop Examples.fst_lt3 Examples.incr_double (0, 1)
            (PyInt (Z.of_nat 3)))
  = Ok (error_if (3, 8) true overflow_msg) /\
  realize (error_if (3, 8) true overflow_msg)
  = Raise (RuntimeError overflow_msg).
Proof.
  apply (@stop_at_bound_is_flagged _ Examples.fst_lt3 Examples.incr_double
           (0, 1) (3, 8) 3).
  - exact fst_lt3_first_false_after_3.
  - lia.
Defined.

(** C1, at [k = max_steps]. [cond(x) = x < 5], [body(x) = x + 1],
    [init = 0]: [cond] first becomes false after exactly 5 applications
    of [body].  With [max_steps = 5] (so [k <= max_steps]) the loop
    returns the carry 5, but with the overflow failure attached:
    realizing it raises, where the claim promises a result without
    error. *)
Example stop_at_bound_5_raises :
  first_false_after Examples.lt5 Examples.incr 5 0 5 /\
  (5 <= 5)%nat /\
  bounded_while_loop Examples.lt5 Examples.incr 0 (PyInt 5)
  = ([EvCond 0; EvBody 0; EvCond 1; EvBody 1; EvCond 2; EvBody 2;
      EvCond 3; EvBody 3; EvCond 4; EvBody 4],
     Ok {| observed := 5; pending := Some overflow_msg |}) /\
  realize {| observed := 5; pending := Some overflow_msg |}
  = Raise (RuntimeError overflow_msg).
Proof.
  split; [exact lt5_first_false_after_5|].
  split; [lia|]. split; reflexivity.
Qed.

(** ** Overflow *)

(** C2, as amended: for [max_steps >= 1], when [cond_fn] stays true for
    all [max_steps] applications of [body_fn], the call itself returns
    normally, with the carry after [max_steps] applications; the failure
    is attached to that value, and realizing it raises a [RuntimeError]
    whose message mentions "exceeded" and "max_steps". *)
Theorem overflow_is_deferred {T} (cond_fn : T -> outcome scalar)
    (body_fn : T -> outcome T) (init v : T) (n : nat) :
  (0 < n)%nat ->
  still_true_after cond_fn body_fn n init v ->
  let e := RuntimeError overflow_msg in
  exists d,
    result (bounded_while_loop cond_fn body_fn init (PyInt (Z.of_nat n)))
    = Ok d /\
    observed d = v /\
    realize d = Raise e /\
    mentions (exn_msg e) "exceeded" = true /\
    mentions (exn_msg e) "max_steps" = true.
Proof.
  intros Hpos Hn e. destruct n as [|n]; [lia|].
  exists (error_if v true overflow_msg).
  rewrite (@loop_scans T cond_fn body_fn init _ n) by reflexivity.
  destruct (lax_scan_continuing Hn) as (t & Hscan & _).
  rewrite Hscan. repeat split; reflexivity.
Qed.

Lemma always_still_true_after_3 :
  still_true_after Examples.always Examples.incr 3 0 3.
Proof.
  split; [|reflexivity].
  through 3.
Qed.

Lemma overflow_is_deferred_witness :
  let e := RuntimeError overflow_msg in
  exists d,
    result (bounded_while_loop Examples.always Examples.incr 0
              (PyInt (Z.of_nat 3)))
    = Ok d /\
    observed d = 3 /\
    realize d = Raise e /\
    mentions (exn_msg e) "exceeded" = true /\
    mentions (exn_msg e) "max_steps" = true.
Proof.
  apply (@overflow_is_deferred Z Examples.always Examples.incr 0 3 3).
  - lia.
  - exact always_still_true_after_3.
Defined.

(** C2 as stated fails at [max_steps = 0]: [cond] is true throughout
    (vacuously for all 0 applications, and on [init] as well), yet the
    loop returns [init] with nothing attached, and realizing it raises
    nothing. *)
Lemma overflow_not_flagged_at_zero :
  still_true_after Examples.always Examples.incr 0 0 0 /\
  continues Examples.always 0 = Some true /\
  bounded_while_loop Examples.always Examples.incr 0 (PyInt 0)
  = ([], Ok (plain 0)) /\
  realize (plain 0) = Ok 0.
Proof.
  split; [|repeat split; reflexivity].
  split; [through 0|reflexivity].
Qed.

(** ** Executions of the user's functions *)

(** C6. When [cond_fn] first becomes false after [k] applications of
    [body_fn], a run executes [body_fn] at most [k] times whatever
    [max_steps] is, and nothing at all is executed after the execution of
    [cond_fn] that returned false. *)
Theorem body_applied_at_most_k {T} (cond_fn : T -> outcome scalar)
    (body_fn : T -> outcome T) (init v : T) (k : nat) (max_steps : pyobj) :
  first_false_after cond_fn body_fn k init v ->
  (body_calls (events (bounded_while_loop cond_fn body_fn init max_steps))
   <= k)%nat /\
  forall t1 u t2,
    events (bounded_while_loop cond_fn body_fn init max_steps)
    = t1 ++ EvCond u :: t2 ->
    continues cond_fn u = Some false ->
    t2 = [].
Proof.
  intros Hk.
  destruct (max_steps_cases max_steps) as [Hbad|[Hzero|(n & Hn)]].
  - rewrite (loop_rejects cond_fn body_fn init Hbad).
    split; [apply Nat.le_0_l|]. intros [|? ?]; discriminate.
  - rewrite (loop_zero cond_fn body_fn init _ Hzero).
    split; [apply Nat.le_0_l|]. intros [|? ?]; discriminate.
  - rewrite (loop_scans cond_fn body_fn init _ Hn). unfold events at 1 3.
    cbn [fst]. split.
    + destruct (Nat.le_gt_cases (S n) k) as [Hle|Hgt].
      * destruct Hk as (Ht & Hv & _).
        destruct (iterate_body_prefix body_fn _ Hle Hv) as (w & Hw).
        destruct (@lax_scan_continuing T cond_fn body_fn (S n) init w)
          as (t & Hscan & Hcount).
        { split; [eapply cond_true_through_le; eassumption | exact Hw]. }
        rewrite Hscan. unfold events. cbn [fst]. lia.
      * destruct (lax_scan_stops (n - k) Hk) as (t & Hscan & Hcount).
        replace (k + S (n - k))%nat with (S n) in Hscan by lia.
        rewrite Hscan. unfold events. cbn [fst]. lia.
    + intros t1 u t2. apply lax_scan_silent_after_stop.
Qed.

Lemma body_applied_at_most_k_witness :
  (body_calls
     (events (bounded_while_loop Examples.lt5 Examples.incr 0%Z
                (PyInt 1000%Z)))
   <= 5)%nat /\
  forall t1 u t2,
    events (bounded_while_loop Examples.lt5 Examples.incr 0 (PyInt 1000))
    = t1 ++ EvCond u :: t2 ->
    continues Examples.lt5 u = Some false ->
    t2 = [].
Proof.
  apply (@body_applied_at_most_k Z Examples.lt5 Examples.incr 0 5 5
           (PyInt 1000)).
  exact lt5_first_false_after_5.
Defined.

(** ** Further facts about the scan *)

Section ScanFacts.
Variable T : Type.
Variable cond_fn : T -> outcome scalar.
Variable body_fn : T -> outcome T.

Local Abbreviation step := (scan_step cond_fn body_fn).

Lemma cond_true_through_cons k init new :
  continues cond_fn init = Some true ->
  body_fn init = Ok new ->
  cond_true_through cond_fn body_fn k new ->
  cond_true_through cond_fn body_fn (S k) init.
Proof.
  intros Hc Hb H [|j] Hj.
  - exists init. split; [reflexivity|exact Hc].
  - destruct (H j) as (v & Hv & Hcv); [lia|].
    exists v. simpl. rewrite Hb. split; assumption.
Qed.

(** What a scan that returned says about [cond_fn]: with the latch set,
    [cond_fn] first failed at some step [k] of the scan, on the carry
    returned; with the latch open, it held before every step. *)
Lemma lax_scan_ok_inv n : forall init t v done ys,
  lax_scan step (init, false) n = (t, Ok ((v, done), ys)) ->
  if done
  then exists k, (k < n)%nat /\ first_false_after cond_fn body_fn k init v
  else still_true_after cond_fn body_fn n init v.
Proof.
  induction n as [|n IH]; intros init t v done ys Hscan.
  { injection Hscan as _ <- <- _. split; [intros j Hj; lia|reflexivity]. }
  four_ways (scan_step_cases cond_fn body_fn init).
  - rewrite (lax_scan_S_raise _ _ n Hs) in Hscan. discriminate.
  - rewrite (lax_scan_S_ok _ _ n Hs), lax_scan_done in Hscan.
    injection Hscan as _ <- <- _.
    exists O. split; [lia|].
    split; [intros j Hj; lia|split; [reflexivity|exact Hc]].
  - rewrite (lax_scan_S_raise _ _ n Hs) in Hscan. discriminate.
  - rewrite (lax_scan_S_ok _ _ n Hs) in Hscan.
    destruct (lax_scan step (new, false) n) as [t' [[[v' d'] ys']|e]] eqn:Hn;
      [|discriminate].
    injection Hscan as _ <- <- _.
    specialize (IH new t' v' d' ys' Hn).
    destruct d'.
    + destruct IH as (k & Hlt & Ht & Hv & Hf).
      exists (S k). split; [lia|].
      split; [eapply cond_true_through_cons; eassumption|].
      split; [simpl; rewrite Hb; exact Hv|exact Hf].
    + destruct IH as (Ht & Hv).
      split; [eapply cond_true_through_cons; eassumption|].
      simpl. rewrite Hb. exact Hv.
Qed.

(** [cond_fn] runs before every [body_fn] and at most once more, and at
    most once per step of the scan. *)
Lemma lax_scan_calls n : forall val done,
  let t := events (lax_scan step (val, done) n) in
  (body_calls t <= cond_calls t <= S (body_calls t))%nat /\
  (cond_calls t <= n)%nat.
Proof.
  unfold body_calls, cond_calls.
  induction n as [|n IH]; intros val done; [simpl; lia|].
  destruct done; [rewrite lax_scan_done; simpl; lia|].
  four_ways (scan_step_cases cond_fn body_fn val).
  - rewrite (lax_scan_S_raise _ _ n Hs). simpl. lia.
  - rewrite (lax_scan_S_ok _ _ n Hs), lax_scan_done. simpl. lia.
  - rewrite (lax_scan_S_raise _ _ n Hs). simpl. lia.
  - rewrite (lax_scan_S_ok _ _ n Hs). specialize (IH new false).
    unfold events in *. simpl in *. lia.
Qed.

(** [body_fn] only ever runs on a carry on which [cond_fn] has just
    been executed and said "continue". *)
Lemma lax_scan_body_guarded n : forall val done t1 v t2,
  events (lax_scan step (val, done) n) = t1 ++ EvBody v :: t2 ->
  continues cond_fn v = Some true /\ exists t0, t1 = t0 ++ [EvCond v].
Proof.
  induction n as [|n IH]; intros val done t1 v t2 Hev.
  { destruct t1; discriminate. }
  destruct done.
  { rewrite lax_scan_done in Hev. destruct t1; discriminate. }
  four_ways (scan_step_cases cond_fn body_fn val).
  - rewrite (lax_scan_S_raise _ _ n Hs) in Hev.
    destruct t1 as [|? [|? ?]]; simpl in Hev; congruence.
  - rewrite (lax_scan_S_ok _ _ n Hs), lax_scan_done in Hev.
    destruct t1 as [|? [|? ?]]; simpl in Hev; congruence.
  - rewrite (lax_scan_S_raise _ _ n Hs) in Hev.
    destruct t1 as [|a [|b [|? ?]]]; simpl in Hev; try congruence.
    injection Hev as <- <- _. split; [exact Hc|exists []; reflexivity].
  - rewrite (lax_scan_S_ok _ _ n Hs) in Hev.
    destruct t1 as [|a [|b t1]]; simpl in Hev; try congruence.
    + injection Hev as <- <- _. split; [exact Hc|exists []; reflexivity].
    + injection Hev as <- <- Hev.
      destruct (IH _ _ _ _ _ Hev) as (Hv & t0 & ->).
      split; [exact Hv|]. exists (EvCond val :: EvBody val :: t0). reflexivity.
Qed.

(** Where the docstring's loop returns a carry, the scan returns the same
    carry. *)
Lemma lax_scan_docstring_loop n : forall init v,
  docstring_loop cond_fn body_fn n init = Ok v ->
  exists t done ys,
    lax_scan step (init, false) n = (t, Ok ((v, done), ys)).
Proof.
  induction n as [|n IH]; intros init v Hloop.
  { simpl in Hloop. destruct (cond_fn init) as [c|e]; [|discriminate].
    assert (v = init) as -> by (destruct (asarray_bool c); congruence).
    do 3 eexists. reflexivity. }
  four_ways (scan_step_cases cond_fn body_fn init);
    unfold continues in *; simpl in Hloop;
    destruct (cond_fn init) as [c|e0]; try discriminate.
  - injection Hc as Hc. rewrite Hc in Hloop. injection Hloop as <-.
    rewrite (lax_scan_S_ok _ _ n Hs), lax_scan_done.
    do 3 eexists. reflexivity.
  - injection Hc as Hc. rewrite Hc, Hb in Hloop. discriminate.
  - injection Hc as Hc. rewrite Hc, Hb in Hloop.
    destruct (IH new v Hloop) as (t & done & ys & Hscan).
    rewrite (lax_scan_S_ok _ _ n Hs), Hscan.
    do 3 eexists. reflexivity.
Qed.
End ScanFacts.

Lemma lax_scan_first_event {T} (cond_fn : T -> outcome scalar)
    (body_fn : T -> outcome T) (init : T) n :
  exists t,
    events (lax_scan (scan_step cond_fn body_fn) (init, false) (S n))
    = EvCond init :: t.
Proof.
  four_ways (scan_step_cases cond_fn body_fn init).
  - rewrite (lax_scan_S_raise _ _ n Hs). eexists; reflexivity.
  - rewrite (lax_scan_S_ok _ _ n Hs). eexists; reflexivity.
  - rewrite (lax_scan_S_raise _ _ n Hs). eexists; reflexivity.
  - rewrite (lax_scan_S_ok _ _ n Hs). eexists; reflexivity.
Qed.

Lemma lt5_still_true_after_3 :
  still_true_after Examples.lt5 Examples.incr 3 0 3.
Proof. split; [through 3|reflexivity]. Qed.

(** ** The hard iteration bound *)

(** X3. In every run, [cond_fn] is executed at most [max_steps] times,
    and [body_fn] as often as [cond_fn] or once less: so [body_fn] too is
    executed at most [max_steps] times, whatever the functions do. *)
Theorem executions_bounded {T} (cond_fn : T -> outcome scalar)
    (body_fn : T -> outcome T) (init : T) (max_steps : pyobj) (z : Z) :
  int_value max_steps = Some z ->
  let t := events (bounded_while_loop cond_fn body_fn init max_steps) in
  (body_calls t <= cond_calls t <= S (body_calls t))%nat /\
  (cond_calls t <= Z.to_nat z)%nat.
Proof.
  intros Hz.
  destruct (max_steps_cases max_steps) as [Hbad|[Hzero|(n & Hn)]].
  - rewrite (loop_rejects cond_fn body_fn init Hbad). simpl.
    unfold body_calls, cond_calls. simpl. lia.
  - rewrite (loop_zero cond_fn body_fn init _ Hzero). simpl.
    unfold body_calls, cond_calls. simpl. lia.
  - rewrite (loop_scans cond_fn body_fn init _ Hn).
    assert (z = Z.of_nat (S n)) as -> by congruence.
    rewrite Nat2Z.id. unfold events at 1. cbn [fst].
    apply lax_scan_calls.
Qed.

Lemma executions_bounded_witness :
  let t :=
    events (bounded_while_loop Examples.always Examples.incr 0 (PyInt 3)) in
  (body_calls t <= cond_calls t <= S (body_calls t))%nat /\
  (cond_calls t <= Z.to_nat 3)%nat.
Proof.
  apply (@executions_bounded Z Examples.always Examples.incr 0 (PyInt 3) 3).
  reflexivity.
Defined.

(** X4. The guard is respected: whenever [body_fn] is executed on a
    carry, the execution just before it was [cond_fn] on that same carry,
    and it said "continue". *)
Theorem body_runs_only_after_true_cond {T} (cond_fn : T -> outcome scalar)
    (body_fn : T -> outcome T) (init : T) (max_steps : pyobj) t1 v t2 :
  events (bounded_while_loop cond_fn body_fn init max_steps)
  = t1 ++ EvBody v :: t2 ->
  continues cond_fn v = Some true /\ exists t0, t1 = t0 ++ [EvCond v].
Proof.
  destruct (max_steps_cases max_steps) as [Hbad|[Hzero|(n & Hn)]].
  - rewrite (loop_rejects cond_fn body_fn init Hbad).
    destruct t1; discriminate.
  - rewrite (loop_zero cond_fn body_fn init _ Hzero).
    destruct t1; discriminate.
  - rewrite (loop_scans cond_fn body_fn init _ Hn).
    unfold events at 1. cbn [fst]. apply lax_scan_body_guarded.
Qed.

Lemma body_runs_only_after_true_cond_witness :
  continues Examples.lt5 1 = Some true /\
  exists t0, [EvCond 0; EvBody 0; EvCond 1] = t0 ++ [EvCond 1].
Proof.
  apply (@body_runs_only_after_true_cond Z Examples.lt5 Examples.incr 0
           (PyInt 2) [EvCond 0; EvBody 0; EvCond 1] 1 []).
  reflexivity.
Defined.

(** ** What a returned value means *)

(** X5. Every value the call returns is accounted for.  Without a
    failure attached it is [init] itself at [max_steps = 0], and otherwise
    the carry on which [cond_fn] first failed, after fewer than
    [max_steps] applications of [body_fn].  With a failure attached, the
    failure is the overflow message, and the value is the carry after all
    [max_steps] applications, before each of which [cond_fn] held. *)
Theorem returned_value_explained {T} (cond_fn : T -> outcome scalar)
    (body_fn : T -> outcome T) (init : T) (max_steps : Z) d :
  result (bounded_while_loop cond_fn body_fn init (PyInt max_steps)) = Ok d ->
  match pending d with
  | None =>
      (max_steps = 0 /\ observed d = init) \/
      exists k,
        Z.of_nat k < max_steps /\
        first_false_after cond_fn body_fn k init (observed d)
  | Some msg =>
      msg = overflow_msg /\ 0 < max_steps /\
      still_true_after cond_fn body_fn (Z.to_nat max_steps) init (observed d)
  end.
Proof.
  destruct (max_steps_cases (PyInt max_steps)) as [Hbad|[Hzero|(n & Hn)]].
  - rewrite (loop_rejects cond_fn body_fn init Hbad). discriminate.
  - rewrite (loop_zero cond_fn body_fn init _ Hzero).
    injection Hzero as ->. intros [= <-]. left. split; reflexivity.
  - rewrite (loop_scans cond_fn body_fn init _ Hn).
    assert (Hm : max_steps = Z.of_nat (S n)) by (injection Hn; trivial).
    unfold result at 1. cbn [snd].
    destruct (lax_scan (scan_step cond_fn body_fn) (init, false) (S n))
      as [t [[[v done] ys]|e]] eqn:Hscan; [|discriminate].
    intros [= <-]. apply lax_scan_ok_inv in Hscan.
    destruct done; cbn [pending observed error_if negb].
    + right. destruct Hscan as (k & Hlt & Hk). exists k. split; [lia|exact Hk].
    + replace (Z.to_nat max_steps) with (S n) by lia.
      split; [reflexivity|split; [lia|exact Hscan]].
Qed.

Lemma returned_value_explained_witness :
  (10 = 0 /\ 5 = 0) \/
  exists k,
    Z.of_nat k < 10 /\ first_false_after Examples.lt5 Examples.incr k 0 5.
Proof.
  apply (@returned_value_explained Z Examples.lt5 Examples.incr 0 10
           (plain 5)).
  reflexivity.
Defined.

(** X6. Once a run with a positive bound has returned a value without
    failure, every larger bound gives the very same run: the same
    executions and the same value. *)
Theorem larger_bound_same_run {T} (cond_fn : T -> outcome scalar)
    (body_fn : T -> outcome T) (init : T) (max_steps larger : Z) d :
  result (bounded_while_loop cond_fn body_fn init (PyInt max_steps)) = Ok d ->
  pending d = None ->
  0 < max_steps ->
  max_steps <= larger ->
  bounded_while_loop cond_fn body_fn init (PyInt larger)
  = bounded_while_loop cond_fn body_fn init (PyInt max_steps).
Proof.
  intros Hres Hpend Hpos Hle.
  assert (Hn : exists n, max_steps = Z.of_nat (S n))
    by (exists (Z.to_nat (max_steps - 1)); lia).
  destruct Hn as (n & ->).
  assert (Hm : exists m, larger = Z.of_nat (S (n + m)))
    by (exists (Z.to_nat (larger - Z.of_nat (S n))); lia).
  destruct Hm as (m & ->).
  pose proof (@loop_scans T cond_fn body_fn init
                (PyInt (Z.of_nat (S n))) n eq_refl) as E1.
  pose proof (@loop_scans T cond_fn body_fn init
                (PyInt (Z.of_nat (S (n + m)))) (n + m) eq_refl) as E2.
  rewrite E1 in Hres. rewrite E2, E1. clear E1 E2.
  change (S (n + m)) with (S n + m)%nat. rewrite lax_scan_app.
  unfold result in Hres. cbn [snd] in Hres.
  destruct (lax_scan (scan_step cond_fn body_fn) (init, false) (S n))
    as [t [[[v done] ys]|e]]; [|discriminate].
  injection Hres as <-. destruct done; [|discriminate].
  cbn [bind Monad_Run run_bind]. rewrite lax_scan_done.
  unfold events, result. simpl. rewrite !app_nil_r. reflexivity.
Qed.

Lemma larger_bound_same_run_witness :
  bounded_while_loop Examples.lt5 Examples.incr 0 (PyInt 1000)
  = bounded_while_loop Examples.lt5 Examples.incr 0 (PyInt 6).
Proof.
  apply (@larger_bound_same_run Z Examples.lt5 Examples.incr 0 6 1000
           (plain 5)).
  - reflexivity.
  - reflexivity.
  - lia.
  - lia.
Defined.

(** ** Resuming after an overflow *)

(** X7. A loop that overflowed can be resumed from the carry it returned:
    when [cond_fn] stayed true for all [n >= 1] steps, leading to [v],
    running [m >= 1] further steps from [v] executes what a single run
    of [n + m] steps from [init] executes after its first [n] steps, and
    has the same outcome. *)
Theorem overflow_resumes {T} (cond_fn : T -> outcome scalar)
    (body_fn : T -> outcome T) (init v : T) (n m : nat) :
  still_true_after cond_fn body_fn n init v ->
  (0 < n)%nat ->
  (0 < m)%nat ->
  events (bounded_while_loop cond_fn body_fn init (PyInt (Z.of_nat (n + m))))
  = events (bounded_while_loop cond_fn body_fn init (PyInt (Z.of_nat n)))
    ++ events (bounded_while_loop cond_fn body_fn v (PyInt (Z.of_nat m))) /\
  result (bounded_while_loop cond_fn body_fn init (PyInt (Z.of_nat (n + m))))
  = result (bounded_while_loop cond_fn body_fn v (PyInt (Z.of_nat m))).
Proof.
  intros Hn Hpos Hposm.
  destruct n as [|n]; [lia|]. destruct m as [|m]; [lia|].
  pose proof (@loop_scans T cond_fn body_fn init
                (PyInt (Z.of_nat (S n))) n eq_refl) as E1.
  pose proof (@loop_scans T cond_fn body_fn v
                (PyInt (Z.of_nat (S m))) m eq_refl) as E2.
  pose proof (@loop_scans T cond_fn body_fn init
                (PyInt (Z.of_nat (S n + S m))) (n + S m) eq_refl) as E3.
  rewrite E1, E2, E3. clear E1 E2 E3.
  change (S (n + S m)) with (S n + S m)%nat. rewrite lax_scan_app.
  destruct (lax_scan_continuing Hn) as (t & Hscan & _). rewrite Hscan.
  cbn [bind Monad_Run run_bind].
  destruct (lax_scan (scan_step cond_fn body_fn) (v, false) (S m))
    as [t' [[[v' done] ys]|e]];
    unfold events, result; simpl; rewrite ?app_nil_r; split; reflexivity.
Qed.

Lemma overflow_resumes_witness :
  events (bounded_while_loop Examples.lt5 Examples.incr 0
            (PyInt (Z.of_nat (3 + 4))))
  = events (bounded_while_loop Examples.lt5 Examples.incr 0
              (PyInt (Z.of_nat 3)))
    ++ events (bounded_while_loop Examples.lt5 Examples.incr 3
                 (PyInt (Z.of_nat 4))) /\
  result (bounded_while_loop Examples.lt5 Examples.incr 0
            (PyInt (Z.of_nat (3 + 4))))
  = result (bounded_while_loop Examples.lt5 Examples.incr 3
              (PyInt (Z.of_nat 4))).
Proof.
  apply (@overflow_resumes Z Examples.lt5 Examples.incr 0 3 3 4).
  - exact lt5_still_true_after_3.
  - lia.
  - lia.
Defined.

(** ** The loop of the docstring *)

(** X9. The carry returned is the one the docstring's loop computes:
    for a valid [max_steps], whenever the loop
    [while cond_fn(val) and i < max_steps: val = body_fn(val); i += 1]
    returns [v], the call returns a value that is observably [v]
    (with or without the overflow failure attached). *)
Theorem agrees_with_docstring_loop {T} (cond_fn : T -> outcome scalar)
    (body_fn : T -> outcome T) (init v : T) (max_steps : Z) :
  0 <= max_steps ->
  docstring_loop cond_fn body_fn (Z.to_nat max_steps) init = Ok v ->
  exists d,
    result (bounded_while_loop cond_fn body_fn init (PyInt max_steps)) = Ok d /\
    observed d = v.
Proof.
  intros Hpos Hloop.
  destruct (max_steps_cases (PyInt max_steps)) as [Hbad|[Hzero|(n & Hn)]].
  - exfalso. apply Hbad. constructor. exact Hpos.
  - rewrite (loop_zero cond_fn body_fn init _ Hzero).
    injection Hzero as ->. exists (plain init). split; [reflexivity|].
    simpl in Hloop. destruct (cond_fn init) as [c|e]; [|discriminate].
    destruct (asarray_bool c); simpl; congruence.
  - rewrite (loop_scans cond_fn body_fn init _ Hn).
    assert (Hm : max_steps = Z.of_nat (S n)) by (injection Hn; trivial).
    replace (Z.to_nat max_steps) with (S n) in Hloop by lia.
    destruct (lax_scan_docstring_loop _ _ _ _ Hloop) as (t & done & ys & Hscan).
    rewrite Hscan. eexists. split; reflexivity.
Qed.

Lemma agrees_with_docstring_loop_witness :
  exists d,
    result (bounded_while_loop Examples.fst_lt3 Examples.incr_double (0, 1)
              (PyInt 3)) = Ok d /\
    observed d = (3, 8).
Proof.
  apply (@agrees_with_docstring_loop _ Examples.fst_lt3 Examples.incr_double
           (0, 1) (3, 8) 3).
  - lia.
  - reflexivity.
Defined.

(** ** The configuration check, the other way round *)

(** X10. Every non-negative integer passes the check on [max_steps]:
    the value 0 returns [init] with nothing executed, and every other one
    starts the loop, whose first execution is [cond_fn] on [init]. *)
Theorem nonneg_max_steps_accepted {T} (cond_fn : T -> outcome scalar)
    (body_fn : T -> outcome T) (init : T) (max_steps : pyobj) :
  nonneg_integer max_steps ->
  (int_value max_steps = Some 0 /\
   bounded_while_loop cond_fn body_fn init max_steps
   = ([], Ok (plain init))) \/
  (exists z t,
      int_value max_steps = Some z /\ 0 < z /\
      events (bounded_while_loop cond_fn body_fn init max_steps)
      = EvCond init :: t).
Proof.
  intros Hok.
  destruct (max_steps_cases max_steps) as [Hbad|[Hzero|(n & Hn)]].
  - contradiction.
  - left. split; [exact Hzero|apply loop_zero; exact Hzero].
  - right. rewrite (loop_scans cond_fn body_fn init _ Hn).
    destruct (lax_scan_first_event cond_fn body_fn init n) as (t & Ht).
    exists (Z.of_nat (S n)), t. split; [exact Hn|split; [lia|exact Ht]].
Qed.

Lemma nonneg_max_steps_accepted_witness :
  (int_value (PyInt 7) = Some 0 /\
   bounded_while_loop Examples.lt5 Examples.incr 0 (PyInt 7)
   = ([], Ok (plain 0))) \/
  (exists z t,
      int_value (PyInt 7) = Some z /\ 0 < z /\
      events (bounded_while_loop Examples.lt5 Examples.incr 0 (PyInt 7))
      = EvCond 0 :: t).
Proof.
  apply (@nonneg_max_steps_accepted Z Examples.lt5 Examples.incr 0 (PyInt 7)).
  constructor. lia.
Defined.
